(** * R console utility (langchain/utilities/rconsole.py)

    A shallow embedding of [warn_once], [RREPL.worker] and [RREPL.run],
    and the properties of the execution and capture protocol they
    implement.

    The Python code drives three collaborators that are not part of the
    module: the rpy2 binding ([robjects.r]), the operating system
    (temporary files, child processes) and the logging library.  They are
    gathered in a [Platform] record; [worker] and [run] are written once,
    over any platform, following the source statement by statement.  A
    reference platform ([Ref]) then gives the R primitives that occur in
    the source text ([sink], [tryCatch], [file], [writeLines], [close])
    the meaning the source comments attribute to them, over an arbitrary
    denotation of user commands. *)

From stdpp Require Import base strings list gmap.
From Stdlib Require Import ZArith Lia.

Set Default Proof Using "Type".
Open Scope Z_scope.

(** ** Python values and control outcomes *)

(** A raised Python exception.  [exc_is_Exception] tells whether the
    object is an instance of [Exception] (what [except Exception] catches)
    or only of [BaseException]; [exc_str] is [str(e)]. *)
Record PyExc := mkExc {
  exc_is_Exception : bool;
  exc_str : string
}.

(** The dictionaries that [worker] puts on the queue: each key may be
    present or not. *)
Record Outcome (V : Type) := mkOutcome {
  res : option V;
  output : option string;
  err : option string
}.
Arguments mkOutcome {V}.
Arguments res {V}.
Arguments output {V}.
Arguments err {V}.

(** What [run] hands back: [queue.get()] yields a dictionary, the timeout
    branch yields a [str]. *)
Inductive PyVal (V : Type) :=
| PyStr (s : string)
| PyDict (d : Outcome V).
Arguments PyStr {V}.
Arguments PyDict {V}.

(** The outcome of running a piece of Python code from state [s]:
    it returns, raises, never returns (blocks or loops for ever), or takes
    the whole process down (a fault in native code). *)
Inductive Step (S A : Type) :=
| Ret (a : A) (s : S)
| Exc (e : PyExc) (s : S)
| Diverges
| Crashes.
Arguments Ret {S A}.
Arguments Exc {S A}.
Arguments Diverges {S A}.
Arguments Crashes {S A}.

(** Library calls that either return or raise. *)
Inductive PyRes (S A : Type) :=
| POk (a : A) (s : S)
| PRaise (e : PyExc) (s : S).
Arguments POk {S A}.
Arguments PRaise {S A}.

Definition M (S A : Type) : Type := S -> Step S A.

Definition ret {S A} (a : A) : M S A := fun s => Ret a s.

Definition bind {S A B} (m : M S A) (k : A -> M S B) : M S B :=
  fun s =>
    match m s with
    | Ret a s' => k a s'
    | Exc e s' => Exc e s'
    | Diverges => Diverges
    | Crashes => Crashes
    end.

Definition lift {S A} (c : S -> PyRes S A) : M S A :=
  fun s =>
    match c s with
    | POk a s' => Ret a s'
    | PRaise e s' => Exc e s'
    end.

(** [try: body / except Exception as e: handler e]. *)
Definition try_except {S A} (body : M S A) (handler : PyExc -> M S A) : M S A :=
  fun s =>
    match body s with
    | Exc e s' => if exc_is_Exception e then handler e s' else Exc e s'
    | other => other
    end.

Declare Scope py_scope.
Delimit Scope py_scope with py.
Notation "x <- c1 ;; c2" := (bind c1 (fun x => c2))
  (at level 100, c1 at next level, right associativity) : py_scope.
Notation "c1 ;;; c2" := (bind c1 (fun _ => c2))
  (at level 100, right associativity) : py_scope.

(** ** The collaborators *)

(** The R programs that [worker] submits through [robjects.r].  Each
    constructor stands for one of the code strings built in the source. *)
Inductive RCode (F V : Type) :=
| Sink_output (file : F)
    (* sink("<file>") *)
| Sink_message (file : F)
    (* sink("<file>", type = "message") *)
| Def_error_handler (file : F)
    (* function(err) { sink(type = "message"); sink();
         fileConn<-file("<file>");
         writeLines(showCondition(err), fileConn); close(fileConn) } *)
| TryCatch (command : string) (handler : V)
    (* tryCatch(<command>, error=<handler.r_repr()>) *)
| Unsink_message
    (* sink(type = "message") *)
| Unsink_output.
    (* sink() *)
Arguments Sink_output {F V}.
Arguments Sink_message {F V}.
Arguments Def_error_handler {F V}.
Arguments TryCatch {F V}.
Arguments Unsink_message {F V}.
Arguments Unsink_output {F V}.

(** [pstate] is the state of the process that hosts the interpreter: the
    R global environment, the routing of R's streams, and the temporary
    files the process owns.  [exits_before command s t] says whether a
    child process started on [command] from state [s] has exited when
    [join(t)] returns. *)
Record Platform := {
  pstate : Type;
  rval : Type;
  fname : Type;
  envh : Type;
  NamedTemporaryFile : pstate -> PyRes pstate fname;
  tmp_read : fname -> pstate -> PyRes pstate string;
  tmp_close : fname -> pstate -> PyRes pstate unit;
  robjects_r : RCode fname rval -> pstate -> Step pstate rval;
  exits_before : string -> pstate -> Z -> bool;
  globalenv : envh
}.

(** ** The module *)

Section Module.

Variable P : Platform.

Abbreviation outcome := (Outcome (rval P)).

(** The state seen by [worker]: the process and the queue it was given. *)
Record WState := mkW {
  proc : pstate P;
  chan : list outcome
}.

Definition on_proc {A} (c : pstate P -> PyRes (pstate P) A) : M WState A :=
  lift (fun w =>
    match c (proc w) with
    | POk a s => POk a (mkW s (chan w))
    | PRaise e s => PRaise e (mkW s (chan w))
    end).

(** [robjects.r(code)] *)
Definition r (code : RCode (fname P) (rval P)) : M WState (rval P) :=
  fun w =>
    match robjects_r P code (proc w) with
    | Ret v s => Ret v (mkW s (chan w))
    | Exc e s => Exc e (mkW s (chan w))
    | Diverges => Diverges
    | Crashes => Crashes
    end.

(** [queue.put(o)] *)
Definition queue_put (o : outcome) : M WState unit :=
  fun w => Ret tt (mkW (proc w) (chan w ++ [o])).

(** [with tempfile.NamedTemporaryFile(...) as f: body f]: the file is
    closed when the body returns and when it raises. *)
Definition with_tempfile {A} (body : fname P -> M WState A) : M WState A :=
  fun w =>
    match on_proc (NamedTemporaryFile P) w with
    | Ret f w1 =>
        match body f w1 with
        | Ret a w2 => bind (on_proc (tmp_close P f)) (fun _ => ret a) w2
        | Exc e w2 =>
            match on_proc (tmp_close P f) w2 with
            | Ret _ w3 => Exc e w3
            | Exc e' w3 => Exc e' w3
            | Diverges => Diverges
            | Crashes => Crashes
            end
        | Diverges => Diverges
        | Crashes => Crashes
        end
    | Exc e w1 => Exc e w1
    | Diverges => Diverges
    | Crashes => Crashes
    end.

Open Scope py_scope.

(** [RREPL.worker(command, environment, queue)] *)
Definition worker (command : string) (environment : option (envh P))
  : M WState unit :=
  with_tempfile (fun tempf_out =>
  with_tempfile (fun tempf_err =>
    try_except
      (r (Sink_output tempf_out) ;;;
       r (Sink_message tempf_err) ;;;
       error_handler <- r (Def_error_handler tempf_err) ;;
       res <- r (TryCatch command error_handler) ;;
       r Unsink_message ;;;
       r Unsink_output ;;;
       output <- on_proc (tmp_read P tempf_out) ;;
       error <- on_proc (tmp_read P tempf_err) ;;
       queue_put (mkOutcome (Some res) (Some output) (Some error)))
      (fun e => queue_put (mkOutcome None None (Some (exc_str e)))))).

(** *** The advisory *)

(** The process around a supervisor: the interpreter-hosting state, the
    [functools.lru_cache] of [warn_once] (it has an entry once the
    function has returned) and the records handed to [logger.warning]. *)
Record World := mkWorld {
  host : pstate P;
  warn_once_cached : bool;
  log : list string
}.

Definition warning_text : string :=
  "R REPL can execute arbitrary code. Use with caution.".

(** [warn_once()] under [@functools.lru_cache(maxsize=None)] *)
Definition warn_once (w : World) : World :=
  if warn_once_cached w then w
  else mkWorld (host w) true (log w ++ [warning_text]).

(** *** The supervisor *)

(** [class RREPL(BaseModel)], with its single field. *)
Record RREPL := mkRREPL {
  environment : option (envh P)
}.

(** An argument that the caller may leave out. *)
Inductive Arg (A : Type) :=
| Omitted
| Given (a : A).
Arguments Omitted {A}.
Arguments Given {A}.

(** Objects handed to [Field(default_factory=...)].  pydantic obtains the
    default by calling the object with no argument, which invokes its
    [__call__].  [robjects.globalenv] is an instance of rpy2's
    [Environment] class: a mapping (the field is annotated [Dict]) that
    defines no [__call__]. *)
Inductive PyObject :=
| Environment_instance (h : envh P).

Definition py_call (o : PyObject) : PyRes unit (option (envh P)) :=
  match o with
  | Environment_instance _ =>
      PRaise (mkExc true "'Environment' object is not callable") tt
  end.

(** [environment: Optional[Dict] = Field(default_factory=robjects.globalenv)] *)
Definition default_factory : PyObject := Environment_instance (globalenv P).

(** [RREPL(environment=...)] *)
Definition RREPL_init (environment : Arg (option (envh P))) : PyRes unit RREPL :=
  match environment with
  | Given h => POk (mkRREPL h) tt
  | Omitted =>
      match py_call default_factory with
      | POk h u => POk (mkRREPL h) u
      | PRaise e u => PRaise e u
      end
  end.

(** [queue.get()]: the first item, or a wait that never ends when nothing
    is and nothing will be on the queue. *)
Definition queue_get (queue : list outcome) : M World (PyVal (rval P)) :=
  fun w =>
    match queue with
    | o :: _ => Ret (PyDict o) w
    | [] => Diverges
    end.

(** [p.is_alive()] after [p.join(timeout)]: a child that never finishes
    is alive; any other child is alive unless it exited in time. *)
Definition is_alive (child : Step WState unit) (exited_in_time : bool) : bool :=
  match child with
  | Diverges => true
  | _ => negb exited_in_time
  end.

(** What the child has put on the queue when it is gone.  A child that
    crashes does so inside the interpreter, before line 60. *)
Definition deposited (child : Step WState unit) : list outcome :=
  match child with
  | Ret _ ws => chan ws
  | Exc _ ws => chan ws
  | Diverges => []
  | Crashes => []
  end.

(** [RREPL.run(self, command, timeout=None)].  With a timeout the worker
    runs in a [multiprocessing.Process]: it works on the child's copy of
    the process state, and only the queue comes back to the parent. *)
Definition run (self : RREPL) (command : string) (timeout : option Z)
  : M World (PyVal (rval P)) :=
  fun w0 =>
    let w := warn_once w0 in
    let queue : list outcome := [] in
    match timeout with
    | Some t =>
        let p := worker command (environment self) (mkW (host w) queue) in
        if is_alive p (exits_before P command (host w) t)
        then Ret (PyStr "Execution timed out") w
        else queue_get (deposited p) w
    | None =>
        match worker command (environment self) (mkW (host w) queue) with
        | Ret _ ws =>
            queue_get (chan ws) (mkWorld (proc ws) (warn_once_cached w) (log w))
        | Exc e ws => Exc e (mkWorld (proc ws) (warn_once_cached w) (log w))
        | Diverges => Diverges
        | Crashes => Crashes
        end
    end.

(** The process after a caller has issued [calls] one after the other,
    each on the instance it names, going on when a call raises; there is
    no such state once a call never comes back. *)
Fixpoint after_calls (calls : list (RREPL * string * option Z)) (w : World)
  : option World :=
  match calls with
  | [] => Some w
  | (self, command, timeout) :: rest =>
      match run self command timeout w with
      | Ret _ w' => after_calls rest w'
      | Exc _ w' => after_calls rest w'
      | Diverges => None
      | Crashes => None
      end
  end.

End Module.

Arguments mkW {P}.
Arguments proc {P}.
Arguments chan {P}.
Arguments mkWorld {P}.
Arguments host {P}.
Arguments warn_once_cached {P}.
Arguments log {P}.
Arguments mkRREPL {P}.
Arguments Omitted {A}.
Arguments Given {A}.
Arguments environment {P}.

(** ** A reference platform *)

(** R values as far as the module can tell them apart. *)
Inductive RVal :=
| RNull
| RInt (z : Z)
| RStr (s : string)
| RClosure (errfile : nat).

(** How the evaluation of a user command ends. *)
Inductive Ending :=
| Value (v : RVal)        (* it yields a value *)
| Signals (cond : string) (* it signals an R error condition *)
| Faults (e : PyExc)      (* [robjects.r] raises: parse error, binding fault *)
| Never                   (* it does not terminate *)
| Segfault.               (* native code takes the process down *)

(** What a user command does when evaluated in a global environment: the
    text it prints, the text it sends to the message stream, the global
    environment it leaves, how it ends and how long it takes.  Commands
    are taken not to redirect R's streams themselves. *)
Record Behaviour (G : Type) := mkBehaviour {
  printed : string;
  messages : string;
  genv_after : G;
  ending : Ending;
  duration : Z
}.
Arguments mkBehaviour {G}.
Arguments printed {G}.
Arguments messages {G}.
Arguments genv_after {G}.
Arguments ending {G}.
Arguments duration {G}.

Definition nl : string := String (Ascii.ascii_of_nat 10) EmptyString.

Module Ref.

(** The interpreter-hosting process: R's global environment, the stack
    of output diversions (innermost first; empty means the console), the
    message diversion (R keeps a single one; [None] means stderr), the
    temporary files by serial number, and the two console streams of the
    host process. *)
Record RState (G : Type) := mkR {
  genv : G;
  out_sinks : list nat;
  msg_sink : option nat;
  files : gmap nat string;
  stdout : string;
  stderr : string;
  next_tmp : nat
}.
Arguments mkR {G}.
Arguments genv {G}.
Arguments out_sinks {G}.
Arguments msg_sink {G}.
Arguments files {G}.
Arguments stdout {G}.
Arguments stderr {G}.
Arguments next_tmp {G}.

Section Ref.

Variable G : Type.
Variable denote : string -> G -> Behaviour G.
Variable showCondition : string -> string.
Variable close_status : RVal.
Variable tmp_available : bool.

Abbreviation state := (RState G).

Definition set_files (fs : gmap nat string) (s : state) : state :=
  mkR (genv s) (out_sinks s) (msg_sink s) fs (stdout s) (stderr s) (next_tmp s).

Definition set_out_sinks (k : list nat) (s : state) : state :=
  mkR (genv s) k (msg_sink s) (files s) (stdout s) (stderr s) (next_tmp s).

Definition set_msg_sink (m : option nat) (s : state) : state :=
  mkR (genv s) (out_sinks s) m (files s) (stdout s) (stderr s) (next_tmp s).

Definition set_genv (g : G) (s : state) : state :=
  mkR g (out_sinks s) (msg_sink s) (files s) (stdout s) (stderr s) (next_tmp s).

Definition content (f : nat) (s : state) : string := default "" (files s !! f).

Definition append_file (f : nat) (text : string) (s : state) : state :=
  set_files (<[f := content f s +:+ text]> (files s)) s.

(** Text written to R's output stream goes to the innermost diversion. *)
Definition emit_out (text : string) (s : state) : state :=
  match out_sinks s with
  | f :: _ => append_file f text s
  | [] => mkR (genv s) (out_sinks s) (msg_sink s) (files s)
            (stdout s +:+ text) (stderr s) (next_tmp s)
  end.

Definition emit_msg (text : string) (s : state) : state :=
  match msg_sink s with
  | Some f => append_file f text s
  | None => mkR (genv s) (out_sinks s) (msg_sink s) (files s)
              (stdout s) (stderr s +:+ text) (next_tmp s)
  end.

(** [tempfile.NamedTemporaryFile(mode="w+", delete=True)] *)
Definition mktemp (s : state) : PyRes state nat :=
  if tmp_available then
    POk (next_tmp s)
      (mkR (genv s) (out_sinks s) (msg_sink s) (<[next_tmp s := ""]> (files s))
         (stdout s) (stderr s) (S (next_tmp s)))
  else PRaise (mkExc true "[Errno 28] No space left on device") s.

(** [f.seek(0); f.read()] *)
Definition read (f : nat) (s : state) : PyRes state string :=
  POk (content f s) s.

(** Leaving the [with] block closes and deletes the file. *)
Definition close (f : nat) (s : state) : PyRes state unit :=
  POk tt (set_files (delete f (files s)) s).

(** The body of the error handler defined in [worker], applied to a
    condition: both streams are released, then the description of the
    condition replaces the content of the error file; the handler's value
    is that of [close(fileConn)]. *)
Definition error_handler (errfile : nat) (cond : string) (s : state) : state :=
  let s1 := set_msg_sink None s in
  let s2 := set_out_sinks (tail (out_sinks s1)) s1 in
  set_files (<[errfile := showCondition cond +:+ nl]> (files s2)) s2.

(** [tryCatch(command, error=handler)] *)
Definition tryCatch (command : string) (handler : RVal) (s : state)
  : Step state RVal :=
  let b := denote command (genv s) in
  let s1 := set_genv (genv_after b) (emit_msg (messages b) (emit_out (printed b) s)) in
  match ending b with
  | Value v => Ret v s1
  | Signals cond =>
      match handler with
      | RClosure errfile => Ret close_status (error_handler errfile cond s1)
      | _ => Exc (mkExc true "attempt to apply non-function") s1
      end
  | Faults e => Exc e s1
  | Never => Diverges
  | Segfault => Crashes
  end.

(** [robjects.r(code)], evaluated in R's global environment. *)
Definition eval (code : RCode nat RVal) (s : state) : Step state RVal :=
  match code with
  | Sink_output f =>
      Ret RNull (set_out_sinks (f :: out_sinks s) (set_files (<[f := ""]> (files s)) s))
  | Sink_message f =>
      Ret RNull (set_msg_sink (Some f) (set_files (<[f := ""]> (files s)) s))
  | Def_error_handler f => Ret (RClosure f) s
  | TryCatch command handler => tryCatch command handler s
  | Unsink_message => Ret RNull (set_msg_sink None s)
  | Unsink_output => Ret RNull (set_out_sinks (tail (out_sinks s)) s)
  end.

Definition platform : Platform := {|
  pstate := state;
  rval := RVal;
  fname := nat;
  envh := unit;
  NamedTemporaryFile := mktemp;
  tmp_read := read;
  tmp_close := close;
  robjects_r := eval;
  exits_before := fun command s t => duration (denote command (genv s)) <? t;
  globalenv := tt
|}.

End Ref.

End Ref.

(** ** A small command language to run the reference platform on

    The global environment holds the variable [x], if bound. *)
Module Toy.

Definition denote (command : string) (g : option Z) : Behaviour (option Z) :=
  if String.eqb command "x <- 1" then
    mkBehaviour "" "" (Some 1) (Value (RInt 1)) 0
  else if String.eqb command "x" then
    match g with
    | Some z => mkBehaviour "" "" g (Value (RInt z)) 0
    | None => mkBehaviour "" "" g (Signals "object 'x' not found") 0
    end
  else if String.eqb command "cat('hi')" then
    mkBehaviour "hi" "" g (Value RNull) 0
  else if String.eqb command "message('note')" then
    mkBehaviour "" ("note" +:+ nl) g (Value RNull) 0
  else if String.eqb command "stop('boom')" then
    mkBehaviour "" "" g (Signals "boom") 0
  else if String.eqb command "1 +" then
    mkBehaviour "" "" g (Faults (mkExc true "unexpected end of input")) 0
  else if String.eqb command "Sys.sleep(5)" then
    mkBehaviour "" "" g (Value RNull) 5
  else if String.eqb command "repeat {}" then
    mkBehaviour "" "" g Never 0
  else if String.eqb command "native_crash()" then
    mkBehaviour "" "" g Segfault 0
  else
    mkBehaviour "" "" g (Value RNull) 0.

Definition showCondition (cond : string) : string := "Error: " +:+ cond.

(** [close] on a file connection returns its status, 0 on success. *)
Definition close_status : RVal := RInt 0.

Definition platform (tmp_available : bool) : Platform :=
  Ref.platform (option Z) denote showCondition close_status tmp_available.

Definition fresh : Ref.RState (option Z) := Ref.mkR None [] None ∅ "" "" 0.

Definition boot (tmp_available : bool) : World (platform tmp_available) :=
  mkWorld (P := platform tmp_available) fresh false [].

Definition repl (tmp_available : bool) : RREPL (platform tmp_available) :=
  mkRREPL (P := platform tmp_available) (Some tt).

(** A second instance, built with [environment=None]. *)
Definition other_repl : RREPL (platform true) :=
  mkRREPL (P := platform true) None.



End Toy.


(** ** Vocabulary of the statements *)

Section Vocabulary.

Variable P : Platform.



Definition py_succeeds {S A} (st : PyRes S A) : Prop :=
  match st with
  | POk _ _ => True
  | PRaise _ _ => False
  end.



(** The two shapes of dictionary that [worker] builds: all three keys, or
    [err] alone. *)
Definition well_shaped (o : Outcome (rval P)) : Prop :=
  is_Some (err o) /\
  ((is_Some (res o) /\ is_Some (output o)) \/ (res o = None /\ output o = None)).

(** A populated outcome carries the captured output. *)
Definition populated (v : PyVal (rval P)) : Prop :=
  match v with
  | PyDict o => is_Some (output o)
  | PyStr _ => False
  end.

Definition is_str (v : PyVal (rval P)) : Prop :=
  match v with
  | PyStr _ => True
  | PyDict _ => False
  end.

(** The guarded block of [worker] (the [try] with its [except]). *)
Definition guarded (command : string) (tempf_out tempf_err : fname P)
  : M (WState P) unit :=
  try_except
    (r P (Sink_output tempf_out) ;;;
     r P (Sink_message tempf_err) ;;;
     error_handler <- r P (Def_error_handler tempf_err) ;;
     res <- r P (TryCatch command error_handler) ;;
     r P Unsink_message ;;;
     r P Unsink_output ;;;
     output <- on_proc P (tmp_read P tempf_out) ;;
     error <- on_proc P (tmp_read P tempf_err) ;;
     queue_put P (mkOutcome (Some res) (Some output) (Some error)))%py
    (fun e => queue_put P (mkOutcome None None (Some (exc_str e)))).

End Vocabulary.

(** The evaluation of the command runs to its end: it yields a value or
    signals an R error, which the handler takes care of. *)
Definition completes (e : Ending) : Prop :=
  match e with
  | Value _ => True
  | Signals _ => True
  | _ => False
  end.

(** The command is done before the deadline, if there is one. *)
Definition within (timeout : option Z) (d : Z) : Prop :=
  match timeout with
  | None => True
  | Some t => d < t
  end.

(** ** Vocabulary of the further properties *)

(** No file bears a serial number that [NamedTemporaryFile] is still to
    hand out. *)
Definition tmp_unused {G} (s : Ref.RState G) : Prop :=
  forall f, (Ref.next_tmp s <= f)%nat -> Ref.files s !! f = None.

(** The process state after a call of [worker] that started in [s]: two
    serial numbers are used up, the files and the console streams are
    those of [s]. *)
Definition after_worker {G} (s : Ref.RState G)
  (sinks : list nat) (msg : option nat) (g : G) : Ref.RState G :=
  Ref.mkR g sinks msg (Ref.files s) (Ref.stdout s) (Ref.stderr s)
    (S (S (Ref.next_tmp s))).


(** Every call carries a timeout. *)
Definition all_timed {P} (calls : list (RREPL P * string * option Z)) : Prop :=
  Forall (fun call => is_Some (snd call)) calls.




(** The toy commands, and a sleep that the user interrupts: rpy2 raises
    [KeyboardInterrupt], which is not an [Exception]. *)
Module Interruptible.

Definition denote (command : string) (g : option Z) : Behaviour (option Z) :=
  if String.eqb command "Sys.sleep(60)" then
    mkBehaviour "" "" g (Faults (mkExc false "KeyboardInterrupt")) 3
  else Toy.denote command g.

Definition platform : Platform :=
  Ref.platform (option Z) denote Toy.showCondition Toy.close_status true.

Definition repl : RREPL platform := mkRREPL (P := platform) (Some tt).

Definition boot : World platform := mkWorld (P := platform) Toy.fresh false [].

End Interruptible.


(** A platform on which only the supply of file descriptors matters: the
    state is the number of files the process may still open. *)
Module Scarce.

Definition platform : Platform := {|
  pstate := nat;
  rval := unit;
  fname := nat;
  envh := unit;
  NamedTemporaryFile := fun n =>
    match n with
    | O => PRaise (mkExc true "[Errno 24] Too many open files") O
    | S k => POk k k
    end;
  tmp_read := fun _ n => POk "" n;
  tmp_close := fun _ n => POk tt (S n);
  robjects_r := fun _ n => Ret tt n;
  exits_before := fun _ _ _ => true;
  globalenv := tt
|}.

Definition repl : RREPL platform := mkRREPL (P := platform) (Some tt).

(** A process that may open one more file. *)
Definition one_left : World platform := mkWorld (P := platform) 1%nat false [].

End Scarce.

(** * Properties *)

(** ** The worker, on any platform *)

Section WorkerFacts.

Variable P : Platform.

Lemma worker_unfold command environment :
  worker P command environment =
  with_tempfile P (fun tempf_out =>
  with_tempfile P (fun tempf_err => guarded P command tempf_out tempf_err)).
Proof. reflexivity. Qed.

Ltac case_platform :=
  match goal with
  | |- context [match robjects_r P ?c ?s with _ => _ end] =>
      destruct (robjects_r P c s) eqn:?; simpl
  | |- context [match tmp_read P ?f ?s with _ => _ end] =>
      destruct (tmp_read P f s) eqn:?; simpl
  | |- context [match tmp_close P ?f ?s with _ => _ end] =>
      destruct (tmp_close P f s) eqn:?; simpl
  | |- context [match NamedTemporaryFile P ?s with _ => _ end] =>
      destruct (NamedTemporaryFile P s) eqn:?; simpl
  | |- context [if exc_is_Exception ?e then _ else _] =>
      destruct (exc_is_Exception e) eqn:?; simpl
  end.

(** The guarded block puts at most one dictionary on the queue, exactly
    one when it returns, and none when it raises. *)
Lemma guarded_deposit command f_out f_err w :
  match guarded P command f_out f_err w with
  | Ret _ w' => exists o, chan w' = chan w ++ [o] /\ well_shaped P o
  | Exc e w' => chan w' = chan w /\ exc_is_Exception e = false
  | Diverges => True
  | Crashes => True
  end.
Proof.
  unfold guarded, try_except, bind, r, on_proc, lift, queue_put, well_shaped.
  repeat case_platform;
    try solve [ exact I | split; [reflexivity | assumption]
              | eexists; split; [reflexivity | simpl; eauto 6 ] ].
Qed.

(** So does the worker as a whole; when it raises after the guarded block
    has returned (closing a file failed), the dictionary is on the queue. *)
Lemma worker_deposit command environment w :
  match worker P command environment w with
  | Ret _ w' => exists o, chan w' = chan w ++ [o] /\ well_shaped P o
  | Exc _ w' =>
      chan w' = chan w \/ exists o, chan w' = chan w ++ [o] /\ well_shaped P o
  | Diverges => True
  | Crashes => True
  end.
Proof.
  rewrite worker_unfold. unfold with_tempfile at 1.
  unfold on_proc at 1, lift. destruct (NamedTemporaryFile P (proc w)) as [f1 s1|e s1];
    simpl; [|left; reflexivity].
  unfold with_tempfile, on_proc at 1, lift; simpl.
  destruct (NamedTemporaryFile P s1) as [f2 s2|e s2]; simpl.
  - pose proof (guarded_deposit command f1 f2 (mkW s2 (chan w))) as Hg.
    destruct (guarded P command f1 f2 (mkW s2 (chan w))) as [[] w3|e w3| |];
      simpl in *; try exact I.
    + unfold bind, on_proc, lift, ret.
      repeat case_platform; try assumption; right; assumption.
    + destruct Hg as [Hg _]. unfold on_proc, lift.
      repeat case_platform; left; assumption.
  - unfold on_proc, lift. repeat case_platform; left; reflexivity.
Qed.



End WorkerFacts.

(** ** The supervisor, on any platform *)

Section RunFacts.

Variable P : Platform.

Lemma warn_once_sets_cache (w : World P) : warn_once_cached (warn_once P w) = true.
Proof. unfold warn_once. destruct (warn_once_cached w) eqn:E; [exact E | reflexivity]. Qed.

Lemma warn_once_keeps_host (w : World P) : host (warn_once P w) = host w.
Proof. unfold warn_once. destruct (warn_once_cached w); reflexivity. Qed.

Lemma warn_once_first (w : World P) :
  warn_once_cached w = false -> log (warn_once P w) = log w ++ [warning_text].
Proof. unfold warn_once. intros ->. reflexivity. Qed.

Lemma warn_once_again (w : World P) :
  warn_once_cached w = true -> warn_once P w = w.
Proof. unfold warn_once. intros ->. reflexivity. Qed.

(** Without a timeout the worker runs in the caller's process, and the
    state it leaves is the caller's. *)
Lemma run_inline self command w s' o rest :
  worker P command (environment self) (mkW (host w) []) = Ret tt (mkW s' (o :: rest)) ->
  run P self command None w =
    Ret (PyDict o) (mkWorld s' true (log (warn_once P w))).
Proof.
  intros Hw. unfold run. rewrite warn_once_keeps_host, Hw. simpl.
  rewrite warn_once_sets_cache. reflexivity.
Qed.

(** With a timeout only the queue comes back. *)
Lemma run_timed self command t w s' o rest :
  worker P command (environment self) (mkW (host w) []) = Ret tt (mkW s' (o :: rest)) ->
  exits_before P command (host w) t = true ->
  run P self command (Some t) w = Ret (PyDict o) (warn_once P w).
Proof.
  intros Hw Ht. unfold run. rewrite warn_once_keeps_host, Hw, Ht. reflexivity.
Qed.

(** A child that is gone before the deadline without having put anything
    on the queue leaves the parent waiting in [queue.get()]. *)
Lemma run_blocks_on_empty_queue self command t w :
  deposited P (worker P command (environment self) (mkW (host w) [])) = [] ->
  exits_before P command (host w) t = true ->
  worker P command (environment self) (mkW (host w) []) <> Diverges ->
  run P self command (Some t) w = Diverges.
Proof.
  intros Hq Ht Hd. unfold run. rewrite warn_once_keeps_host, Ht, Hq.
  destruct (worker P command (environment self) (mkW (host w) [])); simpl;
    try reflexivity. contradiction.
Qed.

(** Whatever [run] does, when it comes back the advisory has been given
    and the log is the one [warn_once] left. *)
Lemma run_log self command timeout (w : World P) :
  match run P self command timeout w with
  | Ret _ w' => warn_once_cached w' = true /\ log w' = log (warn_once P w)
  | Exc _ w' => warn_once_cached w' = true /\ log w' = log (warn_once P w)
  | Diverges => True
  | Crashes => True
  end.
Proof.
  unfold run. destruct timeout as [t|].
  - destruct (is_alive _ _ _); simpl.
    + split; [apply warn_once_sets_cache | reflexivity].
    + unfold queue_get. destruct (deposited _ _); [exact I|].
      split; [apply warn_once_sets_cache | reflexivity].
  - destruct (worker _ _ _ _) as [[] ws|e ws| |]; simpl; try exact I.
    + unfold queue_get. destruct (chan ws); [exact I|]. simpl.
      split; [apply warn_once_sets_cache | reflexivity].
    + split; [apply warn_once_sets_cache | reflexivity].
Qed.

Lemma after_calls_quiet calls : forall (w w' : World P),
  warn_once_cached w = true ->
  after_calls P calls w = Some w' ->
  log w' = log w.
Proof.
  induction calls as [|[[self command] timeout] rest IH]; intros w w' Hc H.
  - simpl in H. congruence.
  - simpl in H. pose proof (run_log self command timeout w) as Hl.
    rewrite (warn_once_again w Hc) in Hl.
    destruct (run P self command timeout w) as [v w1|e w1| |]; try discriminate;
      destruct Hl as [Hc1 Hl1]; rewrite (IH w1 w' Hc1 H); exact Hl1.
Qed.

(** What [run] returns is the timeout text or a dictionary that the
    worker built. *)
Lemma run_returns_shape self command timeout (w w' : World P) v :
  run P self command timeout w = Ret v w' ->
  (v = PyStr "Execution timed out" /\ is_Some timeout) \/
  (exists o, v = PyDict o /\ well_shaped P o).
Proof.
  unfold run. set (w1 := warn_once P w).
  pose proof (worker_deposit P command (environment self) (mkW (host w1) [])) as Hd.
  destruct timeout as [t|].
  - destruct (is_alive _ _ _).
    + intros [= <- _]. left. split; [reflexivity | eauto].
    + unfold queue_get, deposited.
      destruct (worker P command (environment self) (mkW (host w1) []))
        as [[] ws|e ws| |]; simpl in *; try discriminate.
      * destruct Hd as (o & -> & Ho). simpl. intros [= <- _]. right. eauto.
      * destruct Hd as [-> | (o & -> & Ho)]; simpl; [discriminate|].
        intros [= <- _]. right. eauto.
  - destruct (worker P command (environment self) (mkW (host w1) []))
      as [[] ws|e ws| |]; simpl in *; try discriminate.
    destruct Hd as (o & -> & Ho). simpl. intros [= <- _]. right. eauto.
Qed.

End RunFacts.

(** ** The reference platform *)

Section RefFacts.

Variable G : Type.
Variable denote : string -> G -> Behaviour G.
Variable showCondition : string -> string.
Variable close_status : RVal.

Abbreviation RP := (Ref.platform G denote showCondition close_status true).

Ltac run_worker :=
  unfold worker, with_tempfile, try_except, bind, r, on_proc, lift, queue_put, ret;
  simpl; unfold Ref.tryCatch; simpl.

Ltac read_files :=
  unfold Ref.content, Ref.error_handler, Ref.emit_msg, Ref.emit_out, Ref.append_file,
    Ref.content; simpl;
  repeat (first [ rewrite lookup_insert_eq
                | rewrite lookup_insert_ne by lia
                | rewrite lookup_delete_ne by lia ]; simpl).

(** The command yields a value: the three keys hold the value, the text
    printed and the text sent to the message stream, and R's streams are
    routed as before. *)
Lemma worker_value command environment (s : Ref.RState G) q v :
  ending (denote command (Ref.genv s)) = Value v ->
  let b := denote command (Ref.genv s) in
  exists s' o,
    worker RP command environment (mkW (P:=RP) s q) = Ret tt (mkW (P:=RP) s' (q ++ [o]))
    /\ res o = Some v
    /\ output o = Some (printed b)
    /\ err o = Some (messages b)
    /\ Ref.genv s' = genv_after b
    /\ Ref.out_sinks s' = Ref.out_sinks s
    /\ Ref.msg_sink s' = None
    /\ Ref.stdout s' = Ref.stdout s.
Proof.
  intros Hv b. run_worker. rewrite Hv. simpl.
  do 2 eexists. split; [reflexivity|]. simpl.
  repeat split; read_files; reflexivity.
Qed.

(** The command signals an R error: the handler runs, and its value is
    what ends up under [res]. *)
Lemma worker_signals command environment (s : Ref.RState G) q cond :
  ending (denote command (Ref.genv s)) = Signals cond ->
  let b := denote command (Ref.genv s) in
  exists s' o,
    worker RP command environment (mkW (P:=RP) s q) = Ret tt (mkW (P:=RP) s' (q ++ [o]))
    /\ res o = Some close_status
    /\ output o = Some (printed b)
    /\ err o = Some (showCondition cond +:+ nl)
    /\ Ref.genv s' = genv_after b
    /\ Ref.out_sinks s' = tail (Ref.out_sinks s)
    /\ Ref.msg_sink s' = None
    /\ Ref.stdout s' = Ref.stdout s.
Proof.
  intros Hv b. run_worker. rewrite Hv. simpl.
  do 2 eexists. split; [reflexivity|]. simpl.
  repeat split; read_files; reflexivity.
Qed.

(** [robjects.r] raises during the evaluation: the [except] branch only
    reports, and both diversions set up by the worker stay in place. *)
Lemma worker_faults command environment (s : Ref.RState G) q e :
  ending (denote command (Ref.genv s)) = Faults e ->
  exc_is_Exception e = true ->
  let b := denote command (Ref.genv s) in
  exists s',
    worker RP command environment (mkW (P:=RP) s q) =
      Ret tt (mkW (P:=RP) s' (q ++ [mkOutcome None None (Some (exc_str e))]))
    /\ Ref.genv s' = genv_after b
    /\ Ref.out_sinks s' = Ref.next_tmp s :: Ref.out_sinks s
    /\ Ref.msg_sink s' = Some (S (Ref.next_tmp s)).
Proof.
  intros Hv He b. run_worker. rewrite Hv. simpl. rewrite He. simpl.
  eexists. split; [reflexivity|]. simpl.
  repeat split.
Qed.

(** A command that completes in time, seen from [run]. *)
Lemma run_completes self command timeout (w : World RP) :
  let b := denote command (Ref.genv (host w)) in
  completes (ending b) ->
  within timeout (duration b) ->
  exists o w',
    run RP self command timeout w = Ret (PyDict o) w'
    /\ output o = Some (printed b)
    /\ res o = Some (match ending b with Value v => v | _ => close_status end)
    /\ err o = Some (match ending b with
                     | Signals cond => showCondition cond +:+ nl
                     | _ => messages b
                     end)
    /\ Ref.genv (host w') =
         match timeout with None => genv_after b | Some _ => Ref.genv (host w) end
    /\ (is_Some timeout -> host w' = host w)
    /\ Ref.stdout (host w') = Ref.stdout (host w)
    /\ warn_once_cached w' = true.
Proof.
  intros b Hc Ht.
  assert (Hw : exists s' o,
    worker RP command (environment self) (mkW (P:=RP) (host w) []) =
      Ret tt (mkW (P:=RP) s' ([] ++ [o]))
    /\ res o = Some (match ending b with Value v => v | _ => close_status end)
    /\ output o = Some (printed b)
    /\ err o = Some (match ending b with
                     | Signals cond => showCondition cond +:+ nl
                     | _ => messages b
                     end)
    /\ Ref.genv s' = genv_after b
    /\ Ref.stdout s' = Ref.stdout (host w)).
  { destruct (ending b) as [v|cond| | |] eqn:E; try contradiction.
    - destruct (worker_value command (environment self) (host w) [] v E)
        as (s' & o & H & ? & ? & ? & ? & ? & ? & ?). exists s', o. eauto 10.
    - destruct (worker_signals command (environment self) (host w) [] cond E)
        as (s' & o & H & ? & ? & ? & ? & ? & ? & ?). exists s', o. eauto 10. }
  destruct Hw as (s' & o & Hw & Hres & Hout & Herr & Hg & Hs). simpl in Hw.
  exists o. destruct timeout as [t|].
  - exists (warn_once RP w).
    rewrite (run_timed RP self command t w s' o [] Hw).
    + rewrite warn_once_keeps_host, warn_once_sets_cache. eauto 10.
    + simpl. apply Z.ltb_lt. exact Ht.
  - eexists. rewrite (run_inline RP self command w s' o [] Hw). simpl.
    repeat split; try assumption. intros [? [=]].
Qed.

End RefFacts.

(** ** The toy commands *)


(** [run] on a toy command whose evaluation completes in time. *)
Lemma toy_run_completes self command timeout (w : World (Toy.platform true)) :
  completes (ending (Toy.denote command (Ref.genv (host w)))) ->
  within timeout (duration (Toy.denote command (Ref.genv (host w)))) ->
  exists o w',
    run (Toy.platform true) self command timeout w = Ret (PyDict o) w'
    /\ warn_once_cached w' = true.
Proof.
  intros Hc Ht.
  destruct (run_completes (option Z) Toy.denote Toy.showCondition Toy.close_status
              self command timeout w Hc Ht) as (o & w' & Hr & H).
  exists o, w'. split; [exact Hr | apply H].
Qed.

(** * The claims *)




(** C2, as amended.  What [run] returns is either the text
    "Execution timed out" (only when a timeout was given) or a dictionary
    built by the worker: [err] always, with [res] and [output] both
    present or both missing.  The two are told apart by their type only:
    no text is a dictionary. *)
Theorem C2_run_returns_dictionary_or_timeout_text
  P self command timeout (w w' : World P) v :
  run P self command timeout w = Ret v w' ->
  ((v = PyStr "Execution timed out" /\ is_Some timeout) \/
   (exists o, v = PyDict o /\ well_shaped P o))
  /\ (is_str P v -> forall o, v <> PyDict o).
Proof.
  intros H. split.
  - exact (run_returns_shape P self command timeout w w' v H).
  - destruct v; simpl; [discriminate | contradiction].
Qed.

Lemma C2_run_returns_dictionary_or_timeout_text_witness :
  run (Toy.platform true) (Toy.repl true) "Sys.sleep(5)" (Some 1) (Toy.boot true) =
    Ret (PyStr "Execution timed out")
        (mkWorld (P:=Toy.platform true) Toy.fresh true [warning_text])
  /\
  (((@PyStr RVal "Execution timed out" = PyStr "Execution timed out"
       /\ is_Some (Some 1)) \/
    (exists o, @PyStr RVal "Execution timed out" = PyDict o
               /\ well_shaped (Toy.platform true) o))
   /\ (is_str (Toy.platform true) (PyStr "Execution timed out") ->
       forall o, @PyStr RVal "Execution timed out" <> PyDict o)).
Proof.
  assert (H : run (Toy.platform true) (Toy.repl true) "Sys.sleep(5)" (Some 1)
                (Toy.boot true) =
              Ret (PyStr "Execution timed out")
                (mkWorld (P:=Toy.platform true) Toy.fresh true [warning_text]))
    by reflexivity.
  split.
  - exact H.
  - exact (C2_run_returns_dictionary_or_timeout_text (Toy.platform true) (Toy.repl true)
             "Sys.sleep(5)" (Some 1) (Toy.boot true)
             (mkWorld (P:=Toy.platform true) Toy.fresh true [warning_text])
             (PyStr "Execution timed out") H).
Defined.

(** C2, as stated, fails: a call that times out returns a bare text, not
    a tagged marker, and a call whose evaluation faults returns a
    dictionary with [err] alone, which is not a populated outcome. *)
Lemma C2_timeout_is_a_plain_string :
  (exists v w',
     run (Toy.platform true) (Toy.repl true) "Sys.sleep(5)" (Some 1) (Toy.boot true)
       = Ret v w'
     /\ v = PyStr "Execution timed out"
     /\ is_str (Toy.platform true) v
     /\ ~ populated (Toy.platform true) v)
  /\
  (exists v w',
     run (Toy.platform true) (Toy.repl true) "1 +" None (Toy.boot true) = Ret v w'
     /\ ~ is_str (Toy.platform true) v
     /\ ~ populated (Toy.platform true) v).
Proof.
  split; do 2 eexists; (split; [reflexivity|]); simpl; repeat split; auto.
Qed.



(** C4 fails on the code.  With a timeout, a child that dies inside the
    interpreter before anything is on the queue makes [join] return at
    once with the child no longer alive; [run] then goes on to
    [queue.get()], which has no deadline, and never returns. *)
Theorem C4_crash_before_enqueue_blocks_run :
  worker (Toy.platform true) "native_crash()" (Some tt)
    (mkW (P:=Toy.platform true) Toy.fresh []) = Crashes
  /\ exits_before (Toy.platform true) "native_crash()" Toy.fresh 10 = true
  /\ run (Toy.platform true) (Toy.repl true) "native_crash()" (Some 10) (Toy.boot true)
       = Diverges.
Proof. repeat split. Qed.




(** C6 fails on the code.  When [robjects.r] raises during the
    evaluation (here on a command that does not parse), the [except]
    branch reports the error and nothing undoes the two [sink] calls: the
    output stream and the message stream of the process stay diverted to
    the worker's temporary files. *)
Theorem C6_fault_leaves_streams_diverted :
  Ref.out_sinks Toy.fresh = [] /\
  Ref.msg_sink Toy.fresh = None /\
  exists w',
    worker (Toy.platform true) "1 +" (Some tt)
      (mkW (P:=Toy.platform true) Toy.fresh []) = Ret tt w'
    /\ chan w' = [mkOutcome None None (Some "unexpected end of input")]
    /\ Ref.out_sinks (proc w') = [0%nat]
    /\ Ref.msg_sink (proc w') = Some 1%nat.
Proof.
  do 2 (split; [reflexivity|]).
  destruct (worker_faults (option Z) Toy.denote Toy.showCondition Toy.close_status
              "1 +" (Some tt) Toy.fresh [] (mkExc true "unexpected end of input")
              eq_refl eq_refl)
    as (s' & Hw & _ & Ho & Hm).
  eexists. split; [exact Hw|]. simpl. auto.
Qed.




(** C8 fails on the code.  With [environment] left out, pydantic calls
    the default factory; the factory given is the global environment
    object itself, which cannot be called, so the construction raises and
    no instance is bound to the global environment. *)
Theorem C8_omitted_environment_raises P :
  RREPL_init P Omitted = PRaise (mkExc true "'Environment' object is not callable") tt
  /\ forall self, RREPL_init P Omitted <> POk self tt.
Proof. split; [reflexivity | discriminate]. Qed.

(** C9.  Starting from a process in which the advisory has not been
    given, after any non-empty sequence of calls to [run] that come back
    (returning or raising), on any mix of instances, the log holds
    exactly one more record, the advisory. *)
Theorem C9_advisory_emitted_once
  P (calls : list (RREPL P * string * option Z)) (w w' : World P) :
  calls <> [] ->
  warn_once_cached w = false ->
  after_calls P calls w = Some w' ->
  log w' = log w ++ [warning_text].
Proof.
  intros Hne Hfresh H. destruct calls as [|[[self command] timeout] rest]; [congruence|].
  simpl in H. pose proof (run_log P self command timeout w) as Hl.
  rewrite (warn_once_first P w Hfresh) in Hl.
  destruct (run P self command timeout w) as [v w1|e w1| |]; try discriminate;
    destruct Hl as [Hc1 Hl1]; rewrite (after_calls_quiet P rest w1 w' Hc1 H); exact Hl1.
Qed.

Lemma C9_advisory_emitted_once_witness :
  [(Toy.repl true, "cat('hi')", @None Z); (Toy.other_repl, "x <- 1", Some 5);
   (Toy.repl true, "1 +", None)] <> [] /\
  warn_once_cached (Toy.boot true) = false /\
  exists w',
    after_calls (Toy.platform true)
      [(Toy.repl true, "cat('hi')", None); (Toy.other_repl, "x <- 1", Some 5);
       (Toy.repl true, "1 +", None)] (Toy.boot true) = Some w'
    /\ log w' = log (Toy.boot true) ++ [warning_text].
Proof.
  split; [discriminate|]. split; [reflexivity|].
  destruct (toy_run_completes (Toy.repl true) "cat('hi')" None (Toy.boot true) I I)
    as (o1 & w1 & Hr1 & _).
  destruct (toy_run_completes Toy.other_repl "x <- 1" (Some 5) w1 I eq_refl)
    as (o2 & w2 & Hr2 & _).
  assert (Hr3 : exists w3, run (Toy.platform true) (Toy.repl true) "1 +" None w2
                             = Ret (PyDict (mkOutcome None None
                                              (Some "unexpected end of input"))) w3).
  { destruct (worker_faults (option Z) Toy.denote Toy.showCondition Toy.close_status
                "1 +" (Some tt) (host w2) [] (mkExc true "unexpected end of input")
                eq_refl eq_refl) as (s' & Hw & _).
    eexists.
    exact (run_inline (Toy.platform true) (Toy.repl true) "1 +" w2 s' _ [] Hw). }
  destruct Hr3 as (w3 & Hr3).
  assert (Ha : after_calls (Toy.platform true)
                 [(Toy.repl true, "cat('hi')", None); (Toy.other_repl, "x <- 1", Some 5);
                  (Toy.repl true, "1 +", None)] (Toy.boot true) = Some w3).
  { cbn [after_calls]. rewrite Hr1, Hr2, Hr3. reflexivity. }
  exists w3. split; [exact Ha|].
  exact (C9_advisory_emitted_once (Toy.platform true)
           [(Toy.repl true, "cat('hi')", None); (Toy.other_repl, "x <- 1", Some 5);
            (Toy.repl true, "1 +", None)] (Toy.boot true) w3
           ltac:(discriminate) eq_refl Ha).
Defined.

(** C10.  The worker does not use its [environment] argument: with any
    two handles it is the same computation, and so is [run] on two
    instances that differ in their environment only. *)
Theorem C10_worker_ignores_environment
  P command (e1 e2 : option (envh P)) :
  (forall w, worker P command e1 w = worker P command e2 w)
  /\ (forall timeout w,
        run P (mkRREPL e1) command timeout w = run P (mkRREPL e2) command timeout w).
Proof. split; reflexivity. Qed.

(** * Further properties *)

(** ** On any platform *)

Section MoreRunFacts.

Variable P : Platform.

(** With a timeout, [run] hands back the timeout text or the first
    dictionary of the child, or waits for ever; the caller's process is
    the one [warn_once] left. *)
Lemma timed_run_cases self command t (w : World P) :
  run P self command (Some t) w = Diverges \/
  exists v, run P self command (Some t) w = Ret v (warn_once P w).
Proof.
  unfold run. destruct (is_alive _ _ _).
  - right. eauto.
  - unfold queue_get. destruct (deposited _ _); [left | right]; eauto.
Qed.

End MoreRunFacts.

(** ** On the reference platform *)

Section MoreRefFacts.

Variable G : Type.
Variable denote : string -> G -> Behaviour G.
Variable showCondition : string -> string.
Variable close_status : RVal.

Abbreviation RQ := (Ref.platform G denote showCondition close_status true).

Ltac step_worker :=
  unfold worker, with_tempfile, try_except, bind, r, on_proc, lift, queue_put, ret;
  simpl; unfold Ref.tryCatch; simpl.

Ltac lookup_files :=
  unfold Ref.content, Ref.error_handler, Ref.emit_msg, Ref.emit_out, Ref.append_file,
    Ref.content; simpl;
  repeat (first [ rewrite lookup_insert_eq
                | rewrite lookup_insert_ne by lia
                | rewrite lookup_delete_ne by lia ]; simpl).

(** Deleting the two temporary files gives back the files there were. *)
Lemma closing_restores (fs M : gmap nat string) (n : nat) :
  fs !! n = None -> fs !! S n = None ->
  (forall i, i <> n -> i <> S n -> M !! i = fs !! i) ->
  delete n (delete (S n) M) = fs.
Proof.
  intros H0 H1 HM. apply map_eq. intros i.
  destruct (decide (i = n)) as [->|Hn]; [rewrite lookup_delete_eq; auto|].
  rewrite lookup_delete_ne by auto.
  destruct (decide (i = S n)) as [->|Hm]; [rewrite lookup_delete_eq; auto|].
  rewrite lookup_delete_ne by auto. auto.
Qed.

Lemma state_eta (s' : Ref.RState G) g k m fs so se nx :
  Ref.genv s' = g -> Ref.out_sinks s' = k -> Ref.msg_sink s' = m ->
  Ref.files s' = fs -> Ref.stdout s' = so -> Ref.stderr s' = se ->
  Ref.next_tmp s' = nx ->
  s' = Ref.mkR g k m fs so se nx.
Proof. destruct s'; simpl; intros; subst; reflexivity. Qed.

Lemma outcome_eta (o : Outcome RVal) a b c :
  res o = a -> output o = b -> err o = c -> o = mkOutcome a b c.
Proof. destruct o; simpl; intros; subst; reflexivity. Qed.

Ltac frame_files Hu :=
  simpl; apply closing_restores; [apply Hu; lia | apply Hu; lia |];
  intros i Hi Hj;
  unfold Ref.error_handler, Ref.emit_msg, Ref.emit_out, Ref.append_file; simpl;
  repeat (rewrite lookup_insert_ne by auto); reflexivity.

Ltac exact_state Hu :=
  apply state_eta; [reflexivity | reflexivity | reflexivity | frame_files Hu
                   | reflexivity | reflexivity | reflexivity].

Ltac exact_outcome :=
  apply outcome_eta; simpl; try reflexivity; lookup_files; reflexivity.

(** What [worker] does on the reference platform, in full. *)
Lemma worker_exact command environment (s : Ref.RState G) q :
  tmp_unused s ->
  let b := denote command (Ref.genv s) in
  let n := Ref.next_tmp s in
  worker RQ command environment (mkW (P:=RQ) s q) =
    match ending b with
    | Value v =>
        Ret tt (mkW (P:=RQ) (after_worker s (Ref.out_sinks s) None (genv_after b))
                  (q ++ [mkOutcome (Some v) (Some (printed b)) (Some (messages b))]))
    | Signals cond =>
        Ret tt (mkW (P:=RQ) (after_worker s (tail (Ref.out_sinks s)) None (genv_after b))
                  (q ++ [mkOutcome (Some close_status) (Some (printed b))
                           (Some (showCondition cond +:+ nl))]))
    | Faults e =>
        if exc_is_Exception e then
          Ret tt (mkW (P:=RQ)
                    (after_worker s (n :: Ref.out_sinks s) (Some (S n)) (genv_after b))
                    (q ++ [mkOutcome None None (Some (exc_str e))]))
        else
          Exc e (mkW (P:=RQ)
                   (after_worker s (n :: Ref.out_sinks s) (Some (S n)) (genv_after b)) q)
    | Never => Diverges
    | Segfault => Crashes
    end.
Proof.
  intros Hu b n. step_worker. fold b. fold n.
  destruct (ending b) as [v|cond|e| |]; simpl; [ | | | reflexivity | reflexivity].
  - f_equal. f_equal; [exact_state Hu|]. f_equal. f_equal. exact_outcome.
  - f_equal. f_equal; [exact_state Hu|]. f_equal. f_equal. exact_outcome.
  - destruct (exc_is_Exception e); simpl.
    + f_equal. f_equal. exact_state Hu.
    + f_equal. f_equal. exact_state Hu.
Qed.







End MoreRefFacts.

(** ** The toy commands, again *)

Lemma toy_fresh_unused : tmp_unused Toy.fresh.
Proof. intros f _. apply lookup_empty. Qed.

(** * More about the module *)

(** X1.  On any platform, when [worker] comes back the queue holds what
    it held before, followed by at most one new dictionary: exactly one
    when [worker] returned, none or one when it raised.  The dictionary
    has [err], and [res] and [output] both or neither. *)
Theorem X1_worker_puts_at_most_one P command environment (w : WState P) :
  match worker P command environment w with
  | Ret _ w' => exists o, chan w' = chan w ++ [o] /\ well_shaped P o
  | Exc _ w' =>
      chan w' = chan w \/ exists o, chan w' = chan w ++ [o] /\ well_shaped P o
  | Diverges => True
  | Crashes => True
  end.
Proof. exact (worker_deposit P command environment w). Qed.

(** X2.  On a platform whose temporary files can always be created and
    released, the only errors that leave [worker] are those that are not
    instances of [Exception] (a [KeyboardInterrupt], say), and then
    nothing has been put on the queue. *)
Theorem X2_only_non_Exceptions_escape
  P command environment (w w' : WState P) e :
  (forall s, py_succeeds (NamedTemporaryFile P s)) ->
  (forall f s, py_succeeds (tmp_close P f s)) ->
  worker P command environment w = Exc e w' ->
  exc_is_Exception e = false /\ chan w' = chan w.
Proof.
  intros Hmk Hcl. rewrite worker_unfold.
  unfold with_tempfile, on_proc, lift, bind, ret.
  pose proof (Hmk (proc w)) as H1.
  destruct (NamedTemporaryFile P (proc w)) as [f1 s1|]; [simpl|contradiction].
  pose proof (Hmk s1) as H2.
  destruct (NamedTemporaryFile P s1) as [f2 s2|]; [simpl|contradiction].
  pose proof (guarded_deposit P command f1 f2 (mkW s2 (chan w))) as Hg.
  destruct (guarded P command f1 f2 (mkW s2 (chan w))) as [[] w3|e3 w3| |];
    simpl in *; try discriminate.
  - pose proof (Hcl f2 (proc w3)) as H3.
    destruct (tmp_close P f2 (proc w3)) as [[] s4|]; [simpl|contradiction].
    pose proof (Hcl f1 s4) as H4.
    destruct (tmp_close P f1 s4) as [[] s5|]; [simpl|contradiction].
    discriminate.
  - destruct Hg as [Hq He].
    pose proof (Hcl f2 (proc w3)) as H3.
    destruct (tmp_close P f2 (proc w3)) as [[] s4|]; [simpl|contradiction].
    pose proof (Hcl f1 s4) as H4.
    destruct (tmp_close P f1 s4) as [[] s5|]; [simpl|contradiction].
    intros [= <- <-]. simpl. auto.
Qed.

Lemma X2_only_non_Exceptions_escape_witness :
  (forall s, py_succeeds (NamedTemporaryFile Interruptible.platform s)) /\
  (forall f s, py_succeeds (tmp_close Interruptible.platform f s)) /\
  worker Interruptible.platform "Sys.sleep(60)" (Some tt)
    (mkW (P:=Interruptible.platform) Toy.fresh []) =
    Exc (mkExc false "KeyboardInterrupt")
      (mkW (P:=Interruptible.platform)
         (after_worker Toy.fresh [0%nat] (Some 1%nat) None) []) /\
  exc_is_Exception (mkExc false "KeyboardInterrupt") = false /\
  chan (mkW (P:=Interruptible.platform)
          (after_worker Toy.fresh [0%nat] (Some 1%nat) None) []) = [].
Proof.
  assert (H1 : forall s, py_succeeds (NamedTemporaryFile Interruptible.platform s))
    by (intros s; exact I).
  assert (H2 : forall f s, py_succeeds (tmp_close Interruptible.platform f s))
    by (intros f s; exact I).
  assert (H3 : worker Interruptible.platform "Sys.sleep(60)" (Some tt)
                 (mkW (P:=Interruptible.platform) Toy.fresh []) =
               Exc (mkExc false "KeyboardInterrupt")
                 (mkW (P:=Interruptible.platform)
                    (after_worker Toy.fresh [0%nat] (Some 1%nat) None) []))
    by exact (worker_exact (option Z) Interruptible.denote Toy.showCondition
                Toy.close_status "Sys.sleep(60)" (Some tt) Toy.fresh []
                toy_fresh_unused).
  split; [exact H1|]. split; [exact H2|]. split; [exact H3|].
  exact (X2_only_non_Exceptions_escape Interruptible.platform "Sys.sleep(60)" (Some tt)
           _ _ _ H1 H2 H3).
Defined.
















(** X11.  On any platform, when the first temporary file is created and
    the second cannot be, the first one is released, the error of the
    second leaves [worker] and the queue is as it was.  A call of [run]
    without timeout then raises that error; a call with a timeout, whose
    child is gone before the deadline, never returns. *)
Theorem X11_second_tempfile_failure
  P self command t (w : World P) (s1 s2 s3 : pstate P) q f1 e :
  NamedTemporaryFile P (host w) = POk f1 s1 ->
  NamedTemporaryFile P s1 = PRaise e s2 ->
  tmp_close P f1 s2 = POk tt s3 ->
  exits_before P command (host w) t = true ->
  worker P command (environment self) (mkW (host w) q) = Exc e (mkW s3 q)
  /\ run P self command None w = Exc e (mkWorld s3 true (log (warn_once P w)))
  /\ run P self command (Some t) w = Diverges.
Proof.
  intros H1 H2 H3 Ht.
  assert (Hw : forall q', worker P command (environment self) (mkW (host w) q')
                          = Exc e (mkW s3 q')).
  { intros q'. rewrite worker_unfold.
    unfold with_tempfile, on_proc, lift. simpl.
    rewrite H1. simpl. rewrite H2. simpl. rewrite H3. reflexivity. }
  split; [apply Hw|]. split.
  - unfold run. rewrite warn_once_keeps_host, Hw. simpl.
    rewrite warn_once_sets_cache. reflexivity.
  - apply run_blocks_on_empty_queue.
    + rewrite Hw. reflexivity.
    + exact Ht.
    + rewrite Hw. discriminate.
Qed.

Lemma X11_second_tempfile_failure_witness :
  NamedTemporaryFile Scarce.platform (host Scarce.one_left) = POk 0%nat 0%nat /\
  NamedTemporaryFile Scarce.platform 0%nat
    = PRaise (mkExc true "[Errno 24] Too many open files") 0%nat /\
  tmp_close Scarce.platform 0%nat 0%nat = POk tt 1%nat /\
  exits_before Scarce.platform "cat('hi')" (host Scarce.one_left) 10 = true /\
  worker Scarce.platform "cat('hi')" (environment Scarce.repl)
    (mkW (P:=Scarce.platform) (host Scarce.one_left) [])
    = Exc (mkExc true "[Errno 24] Too many open files")
        (mkW (P:=Scarce.platform) 1%nat [])
  /\ run Scarce.platform Scarce.repl "cat('hi')" None Scarce.one_left
     = Exc (mkExc true "[Errno 24] Too many open files")
         (mkWorld (P:=Scarce.platform) 1%nat true
            (log (warn_once Scarce.platform Scarce.one_left)))
  /\ run Scarce.platform Scarce.repl "cat('hi')" (Some 10) Scarce.one_left = Diverges.
Proof.
  split; [reflexivity|]. split; [reflexivity|]. split; [reflexivity|].
  split; [reflexivity|].
  exact (X11_second_tempfile_failure Scarce.platform Scarce.repl "cat('hi')" 10
           Scarce.one_left 0%nat 0%nat 1%nat [] 0%nat
           (mkExc true "[Errno 24] Too many open files")
           eq_refl eq_refl eq_refl eq_refl).
Defined.



(** X13.  On any platform, a sequence of calls that all carry a timeout
    and all come back leaves the interpreter-hosting state of the caller
    exactly as it was: nothing that the commands did to the interpreter
    is kept. *)
Theorem X13_timed_calls_keep_the_caller_state
  P (calls : list (RREPL P * string * option Z)) (w w' : World P) :
  all_timed calls ->
  after_calls P calls w = Some w' ->
  host w' = host w.
Proof.
  revert w w'.
  induction calls as [|[[self command] timeout] rest IH]; intros w w' Ht H.
  - simpl in H. congruence.
  - inversion Ht as [|? ? [t Hsome] Hrest]; subst. simpl in Hsome. subst timeout.
    cbn [after_calls] in H.
    destruct (timed_run_cases P self command t w) as [Hd | [v Hr]].
    + rewrite Hd in H. discriminate.
    + rewrite Hr in H. rewrite (IH _ _ Hrest H). apply warn_once_keeps_host.
Qed.

Lemma X13_timed_calls_keep_the_caller_state_witness :
  all_timed [(Toy.repl true, "x <- 1", Some 5); (Toy.other_repl, "cat('hi')", Some 2)] /\
  exists w',
    after_calls (Toy.platform true)
      [(Toy.repl true, "x <- 1", Some 5); (Toy.other_repl, "cat('hi')", Some 2)]
      (Toy.boot true) = Some w'
    /\ host w' = host (Toy.boot true).
Proof.
  assert (Ht : all_timed [(Toy.repl true, "x <- 1", Some 5);
                          (Toy.other_repl, "cat('hi')", Some 2)])
    by (repeat constructor; simpl; eauto).
  destruct (toy_run_completes (Toy.repl true) "x <- 1" (Some 5) (Toy.boot true) I eq_refl)
    as (o1 & w1 & Hr1 & _).
  destruct (toy_run_completes Toy.other_repl "cat('hi')" (Some 2) w1 I eq_refl)
    as (o2 & w2 & Hr2 & _).
  assert (Ha : after_calls (Toy.platform true)
                 [(Toy.repl true, "x <- 1", Some 5); (Toy.other_repl, "cat('hi')", Some 2)]
                 (Toy.boot true) = Some w2)
    by (cbn [after_calls]; rewrite Hr1, Hr2; reflexivity).
  split; [exact Ht|]. exists w2. split; [exact Ha|].
  exact (X13_timed_calls_keep_the_caller_state (Toy.platform true) _ (Toy.boot true) w2
           Ht Ha).
Defined.


